(** * A shallow embedding of the card worker's request pipeline (src/index.ts)

    The worker answers [GET /rpg/:username] with an SVG status card and
    [GET /preview/:username] with an HTML preview page.  The orchestrating
    handlers live in [src/index.ts]; the modules it imports
    ([./github], [./cache], [./svg], [./templates/rpg]) are not part of the
    sources at hand, so their behaviour is modelled from the specification
    and each such definition says so in its doc comment. *)

From Stdlib Require Import String Ascii List ZArith QArith Bool.
From stdpp Require Import base gmap strings.
Import ListNotations.

Open Scope string_scope.

(* ------------------------------------------------------------------ *)
(** ** Data model *)

(** [GitHubUser] of [./types]: the normalised profile snapshot. *)
Record UserRecord := mkUser {
  login : string;
  displayName : option string;
  bio : option string;
  public_repos : Z;
  followers : Z;
  following : Z;
  avatar_url : string;
  html_url : string;
  created_at : string
}.

Inductive Theme := Dark | Light.
Inductive Lang := En | Ja.

(** The typed failure kinds of the upstream client. *)
Inductive ErrorKind := NotFound | RateLimited | UpstreamError | InvalidUsername.

(** [CardOptions["sizeOverrides"]]: the object is built field by field, an
    absent field is [None]. *)
Record SizeOverrides := mkSizes {
  so_title : option Q;
  so_level : option Q;
  so_username : option Q;
  so_bio : option Q;
  so_statLabel : option Q;
  so_statValue : option Q;
  so_barLabel : option Q
}.

Definition empty_sizes : SizeOverrides :=
  mkSizes None None None None None None None.

(** [CardOptions] of [./types]. *)
Record CardOptions := mkOptions {
  opt_theme : Theme;
  opt_lang : Lang;
  opt_font : string;
  opt_sizeOverrides : option SizeOverrides
}.

(** The seven text roles of the card. *)
Inductive Role :=
  RTitle | RLevel | RUsername | RBio | RStatLabel | RStatValue | RBarLabel.

Definition so_get (so : SizeOverrides) (r : Role) : option Q :=
  match r with
  | RTitle => so_title so
  | RLevel => so_level so
  | RUsername => so_username so
  | RBio => so_bio so
  | RStatLabel => so_statLabel so
  | RStatValue => so_statValue so
  | RBarLabel => so_barLabel so
  end.

(** The query parameter carrying the override of each role. *)
Definition size_param (r : Role) : string :=
  match r with
  | RTitle => "sz_title"
  | RLevel => "sz_level"
  | RUsername => "sz_username"
  | RBio => "sz_bio"
  | RStatLabel => "sz_stat_label"
  | RStatValue => "sz_stat_value"
  | RBarLabel => "sz_bar_label"
  end.

(** A query string as the list of its [key=value] pairs, in order;
    [c.req.query(k)] yields the first value given for [k]. *)
Definition Query := list (string * string).

Fixpoint query_get (q : Query) (k : string) : option string :=
  match q with
  | [] => None
  | (k', v) :: q' => if String.eqb k' k then Some v else query_get q' k
  end.

(* ------------------------------------------------------------------ *)
(** ** The username grammar *)

Definition is_alnum (c : ascii) : bool :=
  let n := nat_of_ascii c in
  (Nat.leb 48 n && Nat.leb n 57) || (Nat.leb 65 n && Nat.leb n 90)
  || (Nat.leb 97 n && Nat.leb n 122).

Definition is_hyphen (c : ascii) : bool := Ascii.eqb c "-"%char.

(** Characters are alphanumeric or hyphens, and every hyphen is followed
    by an alphanumeric character (so no double and no trailing hyphen). *)
Fixpoint username_body_ok (s : list ascii) : bool :=
  match s with
  | [] => true
  | c :: s' =>
      (is_alnum c ||
       (is_hyphen c && match s' with c' :: _ => is_alnum c' | [] => false end))
      && username_body_ok s'
  end.

(** Modelled from the spec: [GITHUB_USERNAME_REGEX] of [./github]
    ("alphanumeric and single embedded hyphens, not starting/ending with a
    hyphen, bounded length"); the bound is GitHub's 39 characters, i.e.
    [/^[a-zA-Z0-9](?:[a-zA-Z0-9]|-(?=[a-zA-Z0-9])){0,38}$/]. *)
Definition valid_username (s : string) : bool :=
  let l := list_ascii_of_string s in
  match l with
  | [] => false
  | c :: _ => is_alnum c && username_body_ok l && Nat.leb (length l) 39
  end.

(* ------------------------------------------------------------------ *)
(** ** JavaScript [parseFloat]

    [parseFloat] skips leading white space and reads the longest prefix
    that is a decimal literal (optional sign, [Infinity], or digits with an
    optional fraction and exponent); without such a prefix it yields [NaN].
    The decimal value read is rounded to the nearest double (ties to even),
    and to an infinity beyond the largest double.

    A string is kept as its UTF-8 encoding, the form in which a query value
    travels in the URL before Hono decodes it; JavaScript's white space
    outside ASCII is then a sequence of two or three bytes. *)

Inductive JsNum := JFin (q : Q) | JInf (negative : bool).

(** TAB, LF, VT, FF, CR and SPACE. *)
Definition is_ws (c : ascii) : bool :=
  let n := nat_of_ascii c in Nat.eqb n 32 || (Nat.leb 9 n && Nat.leb n 13).

(** U+00A0 (NO-BREAK SPACE), encoded as C2 A0. *)
Definition is_ws2 (c1 c2 : ascii) : bool :=
  Nat.eqb (nat_of_ascii c1) 194 && Nat.eqb (nat_of_ascii c2) 160.

(** U+1680, U+2000-U+200A, U+2028, U+2029, U+202F, U+205F, U+3000 and
    U+FEFF, encoded in three bytes. *)
Definition is_ws3 (c1 c2 c3 : ascii) : bool :=
  let b1 := nat_of_ascii c1 in
  let b2 := nat_of_ascii c2 in
  let b3 := nat_of_ascii c3 in
  (Nat.eqb b1 225 && Nat.eqb b2 154 && Nat.eqb b3 128)
  || (Nat.eqb b1 226 && Nat.eqb b2 128
      && ((Nat.leb 128 b3 && Nat.leb b3 138)
          || Nat.eqb b3 168 || Nat.eqb b3 169 || Nat.eqb b3 175))
  || (Nat.eqb b1 226 && Nat.eqb b2 129 && Nat.eqb b3 159)
  || (Nat.eqb b1 227 && Nat.eqb b2 128 && Nat.eqb b3 128)
  || (Nat.eqb b1 239 && Nat.eqb b2 187 && Nat.eqb b3 191).

(** Drops the leading white space ([StrWhiteSpaceChar]: [WhiteSpace] and
    [LineTerminator]). *)
Fixpoint trim_start (s : list ascii) : list ascii :=
  match s with
  | [] => []
  | c1 :: s1 =>
      if is_ws c1 then trim_start s1 else
      match s1 with
      | [] => s
      | c2 :: s2 =>
          if is_ws2 c1 c2 then trim_start s2 else
          match s2 with
          | [] => s
          | c3 :: s3 => if is_ws3 c1 c2 c3 then trim_start s3 else s
          end
      end
  end.

Definition digit_of (c : ascii) : option Z :=
  let n := nat_of_ascii c in
  if Nat.leb 48 n && Nat.leb n 57 then Some (Z.of_nat (n - 48)) else None.

(** The leading decimal digits and the rest. *)
Fixpoint take_digits (s : list ascii) : list Z * list ascii :=
  match s with
  | c :: s' =>
      match digit_of c with
      | Some d => let '(ds, r) := take_digits s' in (d :: ds, r)
      | None => ([], s)
      end
  | [] => ([], [])
  end.

Definition digits_value (ds : list Z) : Z :=
  fold_left (fun acc d => 10 * acc + d)%Z ds 0%Z.

Definition pow10 (e : Z) : Q :=
  if (0 <=? e)%Z then inject_Z (10 ^ e) else 1 # Z.to_pos (10 ^ (- e)).

Definition pow2 (e : Z) : Q :=
  if (0 <=? e)%Z then inject_Z (2 ^ e) else 1 # Z.to_pos (2 ^ (- e)).

(** [n / d] rounded to the nearest integer, ties to even ([0 <= n],
    [0 < d]). *)
Definition div_round_even (n d : Z) : Z :=
  let q := (n / d)%Z in
  match Z.compare (2 * (n mod d)) d with
  | Lt => q
  | Gt => (q + 1)%Z
  | Eq => if Z.even q then q else (q + 1)%Z
  end.

(** The binary64 rounding of a non-negative rational, as a significand
    [m] and an exponent [e] (value [m * 2^e]): [e] is chosen so that [m]
    has 53 bits, and at least [-1074] (the subnormal range). *)
Definition round_binary64 (x : Q) : Z * Z :=
  let n := Qnum x in
  let d := Zpos (Qden x) in
  if (n <=? 0)%Z then (0%Z, 0%Z) else
  let k := (Z.log2 n - Z.log2 d)%Z in
  let lg := if Qle_bool (pow2 k) x then k else (k - 1)%Z in
  let e := Z.max (lg - 52) (-1074) in
  let m := if (0 <=? e)%Z then div_round_even n (d * 2 ^ e)
           else div_round_even (n * 2 ^ (- e)) d in
  (m, e).

(** The double nearest a non-negative rational (overflow aside). *)
Definition nearest_double (x : Q) : Q :=
  let '(m, e) := round_binary64 x in (inject_Z m * pow2 e)%Q.

(** The JavaScript number of a decimal value with sign [neg]: infinite
    when the rounding reaches [2^1024]. *)
Definition js_number (neg : bool) (x : Q) : JsNum :=
  let '(m, e) := round_binary64 x in
  if (0 <? m)%Z && (1024 <=? e + Z.log2 m)%Z then JInf neg
  else let v := (inject_Z m * pow2 e)%Q in JFin (if neg then (- v)%Q else v).

Fixpoint is_prefix (p s : list ascii) : bool :=
  match p, s with
  | [], _ => true
  | c :: p', c' :: s' => Ascii.eqb c c' && is_prefix p' s'
  | _ :: _, [] => false
  end.

Definition sign_of (s : list ascii) : bool * list ascii :=
  match s with
  | "-"%char :: s' => (true, s')
  | "+"%char :: s' => (false, s')
  | _ => (false, s)
  end.

(** The exponent part: [e] or [E], an optional sign and at least one
    digit; otherwise nothing is consumed. *)
Definition take_exponent (s : list ascii) : Z * list ascii :=
  match s with
  | c :: s' =>
      if Ascii.eqb c "e" || Ascii.eqb c "E" then
        let '(neg, s'') := sign_of s' in
        match take_digits s'' with
        | ([], _) => (0%Z, s)
        | (ds, r) => ((if neg then - digits_value ds else digits_value ds)%Z, r)
        end
      else (0%Z, s)
  | [] => (0%Z, s)
  end.

(** The number read and the unread rest, [None] for [NaN]. *)
Definition parse_float_prefix (s : string) : option (JsNum * list ascii) :=
  let '(neg, s1) := sign_of (trim_start (list_ascii_of_string s)) in
  let inf := list_ascii_of_string "Infinity" in
  if is_prefix inf s1 then Some (JInf neg, skipn (length inf) s1) else
  let '(ip, s2) := take_digits s1 in
  let '(fp, s3) :=
    match s2 with
    | "."%char :: s2' => take_digits s2'
    | _ => ([], s2)
    end in
  match ip, fp with
  | [], [] => None
  | _, _ =>
      let '(e, rest) := take_exponent s3 in
      let v := (inject_Z (digits_value (ip ++ fp))
                * pow10 (e - Z.of_nat (length fp)))%Q in
      Some (js_number neg v, rest)
  end.

Definition parseFloat (s : string) : option JsNum :=
  option_map fst (parse_float_prefix s).

(** The literal [0.3] of the source: the double nearest 3/10. *)
Definition js_0_3 : Q := nearest_double (3 # 10).

(** [num < 0.3 || num > 2.0] is false. *)
Definition js_in_size_range (n : JsNum) : bool :=
  match n with
  | JFin q => Qle_bool js_0_3 q && Qle_bool q 2
  | JInf _ => false
  end.

(** [parseSizeOverride] (index.ts, lines 52-57); [!value] holds for an
    absent parameter and for the empty string. *)
Definition parseSizeOverride (value : option string) : option Q :=
  match value with
  | None | Some EmptyString => None
  | Some s =>
      match parseFloat s with
      | None => None
      | Some n =>
          if js_in_size_range n then
            match n with JFin q => Some q | JInf _ => None end
          else None
      end
  end.

(* ------------------------------------------------------------------ *)
(** ** Markup *)

(** Modelled from the spec: [escapeXml] of [./svg], replacing the five
    markup-special characters by entities. *)
Definition escape_char (c : ascii) : string :=
  if Ascii.eqb c "&" then "&amp;"
  else if Ascii.eqb c "<" then "&lt;"
  else if Ascii.eqb c ">" then "&gt;"
  else if Ascii.eqb c (ascii_of_nat 34) then "&quot;"
  else if Ascii.eqb c "'" then "&apos;"
  else String c EmptyString.

Fixpoint escapeXml (s : string) : string :=
  match s with
  | EmptyString => EmptyString
  | String c s' => escape_char c ++ escapeXml s'
  end.

(** An SVG document before serialisation: elements with attributes, and
    text nodes (escaped with [escapeXml] when serialised). *)
#[local] Set Warnings "-register-all".
Inductive Xml :=
| XElem (tag : string) (attrs : list (string * string)) (children : list Xml)
| XText (text : string).

Definition name_ok (s : string) : bool :=
  match list_ascii_of_string s with
  | [] => false
  | l => forallb (fun c => is_alnum c || is_hyphen c || Ascii.eqb c ":") l
  end.

Fixpoint attr_names_distinct (a : list (string * string)) : bool :=
  match a with
  | [] => true
  | (k, _) :: a' =>
      negb (existsb (fun p => String.eqb (fst p) k) a') && attr_names_distinct a'
  end.

(** Well-formedness of the tree: legal element and attribute names and no
    attribute given twice on one element. *)
Fixpoint xml_wf (x : Xml) : bool :=
  match x with
  | XText _ => true
  | XElem t a cs =>
      name_ok t && forallb (fun p => name_ok (fst p)) a && attr_names_distinct a
      && (fix go (l : list Xml) : bool :=
            match l with [] => true | c :: l' => xml_wf c && go l' end) cs
  end.

(** A well-formed SVG document: a well-formed tree whose root is an
    [svg] element in the SVG name space. *)
Definition is_svg_document (x : Xml) : bool :=
  match x with
  | XElem t a _ =>
      String.eqb t "svg"
      && existsb (fun p => String.eqb (fst p) "xmlns"
                           && String.eqb (snd p) "http://www.w3.org/2000/svg") a
      && xml_wf x
  | XText _ => false
  end.

(** A fixed palette per theme (swapped wholesale). *)
Record Palette := mkPalette {
  pal_bg : string; pal_border : string; pal_text : string; pal_accent : string
}.

Definition palette_of (t : Theme) : Palette :=
  match t with
  | Dark => mkPalette "#1a1a2e" "#4a4a6a" "#eaeaea" "#00d4aa"
  | Light => mkPalette "#f5f5f5" "#333333" "#1a1a2e" "#007a62"
  end.

(** Modelled from the spec: [createErrorSvg] of [./svg], a minimal themed
    card whose message is derived from the error kind alone; it takes no
    user record. *)
Definition error_message (k : ErrorKind) : string :=
  match k with
  | NotFound => "User not found"
  | RateLimited => "Rate limited, try again later"
  | UpstreamError => "GitHub API error"
  | InvalidUsername => "Invalid username"
  end.

Definition createErrorSvg (k : ErrorKind) (t : Theme) : Xml :=
  let p := palette_of t in
  XElem "svg" [("xmlns", "http://www.w3.org/2000/svg");
               ("width", "400"); ("height", "120"); ("viewBox", "0 0 400 120")]
    [XElem "rect" [("width", "400"); ("height", "120");
                   ("fill", pal_bg p); ("stroke", pal_border p)] [];
     XElem "text" [("x", "200"); ("y", "65"); ("text-anchor", "middle");
                   ("fill", pal_text p)] [XText (error_message k)]].

(* ------------------------------------------------------------------ *)
(** ** Upstream client and cache *)

(** The observable effects of a request. *)
Inductive Event :=
| EvCacheGet (key : string)
| EvCachePut (key : string) (u : UserRecord)
| EvUpstreamGet (username : string).

(** What the upstream answers to [GET /users/:name]: an HTTP status with
    the body parsed as a profile (or [None] if it does not parse), or a
    transport failure. *)
Inductive UpstreamReply :=
| Reply (status : Z) (body : option UserRecord)
| TransportFailure.

Inductive FetchResult :=
| FetchOk (user : UserRecord)
| FetchErr (error : ErrorKind) (status : Z).

(** Modelled from the spec: the outcome classification of
    [fetchGitHubUser] in [./github]: 2xx parses into a record, 404 is
    NotFound, 403/429 is RateLimited (answered with 429), anything else is
    UpstreamError (answered with the generic 500). *)
Definition classify (r : UpstreamReply) : FetchResult :=
  match r with
  | Reply s b =>
      if (200 <=? s)%Z && (s <? 300)%Z then
        match b with Some u => FetchOk u | None => FetchErr UpstreamError 500 end
      else if (s =? 404)%Z then FetchErr NotFound 404
      else if (s =? 403)%Z || (s =? 429)%Z then FetchErr RateLimited 429
      else FetchErr UpstreamError 500
  | TransportFailure => FetchErr UpstreamError 500
  end.

(** Modelled from the spec: [fetchGitHubUser] of [./github].  A name
    outside the grammar is refused locally with 400 and no request;
    otherwise exactly one upstream request is issued, no retry. *)
Definition fetchGitHubUser (net : string -> UpstreamReply) (username : string)
  : FetchResult * list Event :=
  if valid_username username then (classify (net username), [EvUpstreamGet username])
  else (FetchErr InvalidUsername 400, []).

(** The fresh entries of the KV store (the store expires entries itself). *)
Abbreviation Cache := (gmap string UserRecord).

(** Modelled from the spec: [getCachedUser] / [setCachedUser] of
    [./cache], a read and a wholesale replacement of the entry. *)
Definition getCachedUser (c : Cache) (key : string) : option UserRecord * list Event :=
  (c !! key, [EvCacheGet key]).

Definition setCachedUser (c : Cache) (key : string) (u : UserRecord) : Cache * list Event :=
  (<[key := u]> c, [EvCachePut key u]).

(* ------------------------------------------------------------------ *)
(** ** Font registry as a JavaScript object *)

Record FontConfig := mkFont {
  font_name : string; font_family : string; font_category : string
}.

(** The names an ordinary object inherits from [Object.prototype]. *)
Definition object_prototype_keys : list string :=
  ["constructor"; "__proto__"; "hasOwnProperty"; "isPrototypeOf";
   "propertyIsEnumerable"; "toLocaleString"; "toString"; "valueOf";
   "__defineGetter__"; "__defineSetter__"; "__lookupGetter__";
   "__lookupSetter__"].

(** The value of [obj[k]] for an object literal: an own entry, else an
    inherited member of [Object.prototype], else [undefined]. *)
Inductive JsLookup := OwnFont (f : FontConfig) | Inherited (name : string) | Undefined.

Fixpoint assoc_get {A} (l : list (string * A)) (k : string) : option A :=
  match l with
  | [] => None
  | (k', v) :: l' => if String.eqb k' k then Some v else assoc_get l' k
  end.

Definition js_get (obj : list (string * FontConfig)) (k : string) : JsLookup :=
  match assoc_get obj k with
  | Some f => OwnFont f
  | None => if existsb (String.eqb k) object_prototype_keys then Inherited k else Undefined
  end.

(** Objects and functions are truthy, [undefined] is not. *)
Definition js_truthy (v : JsLookup) : bool :=
  match v with OwnFont _ | Inherited _ => true | Undefined => false end.

(** The card as the template draws it. *)
Record RenderedCard := mkCard {
  card_user : UserRecord;
  card_palette : Palette;
  card_lang : Lang;
  card_font : string;
  card_font_size : Role -> Q
}.

Inductive Body :=
| SvgError (doc : Xml)
| SvgCard (card : RenderedCard)
| TextBody (text : string)
| HtmlPreview (username : string) (font_options : list (string * string * bool))
              (default_font : string).

Record Response := mkResponse {
  resp_status : Z;
  resp_headers : list (string * string);
  resp_body : Body
}.

Section Worker.

(** [FONTS] and [DEFAULT_FONT] of [./svg]: the registry's own entries in
    order, and the key of the default entry. *)
Variable FONTS : list (string * FontConfig).
Variable DEFAULT_FONT : string.

(** The template's base font size of each text role. *)
Variable base_size : Role -> Q.

(** [const font = fontParam && FONTS[fontParam] ? fontParam : DEFAULT_FONT]. *)
Definition select_font (fontParam : option string) : string :=
  match fontParam with
  | None | Some EmptyString => DEFAULT_FONT
  | Some f => if js_truthy (js_get FONTS f) then f else DEFAULT_FONT
  end.

(** The override object of lines 72-87. *)
Definition sizeOverrides_of (q : Query) : SizeOverrides :=
  mkSizes (parseSizeOverride (query_get q "sz_title"))
          (parseSizeOverride (query_get q "sz_level"))
          (parseSizeOverride (query_get q "sz_username"))
          (parseSizeOverride (query_get q "sz_bio"))
          (parseSizeOverride (query_get q "sz_stat_label"))
          (parseSizeOverride (query_get q "sz_stat_value"))
          (parseSizeOverride (query_get q "sz_bar_label")).

Definition so_is_empty (so : SizeOverrides) : bool :=
  match so with
  | mkSizes None None None None None None None => true
  | _ => false
  end.

(** [options] (lines 89-94); [===] on strings is [String.eqb]. *)
Definition options_of (q : Query) : CardOptions :=
  let so := sizeOverrides_of q in
  mkOptions
    (match query_get q "theme" with
     | Some t => if String.eqb t "light" then Light else Dark
     | None => Dark
     end)
    (match query_get q "lang" with
     | Some l => if String.eqb l "ja" then Ja else En
     | None => En
     end)
    (select_font (query_get q "font"))
    (if so_is_empty so then None else Some so).

(** Modelled from the spec: the size rule of [generateRpgCard] in
    [./templates/rpg], base size times the role's override (1.0 if none). *)
Definition multiplier (o : CardOptions) (r : Role) : Q :=
  match opt_sizeOverrides o with
  | Some so => match so_get so r with Some m => m | None => 1 end
  | None => 1
  end.

(** Modelled from the spec: [generateRpgCard] of [./templates/rpg],
    reduced to what it draws: the record, the theme's palette, the labels
    of the language, the font key and the font size of each role. *)
Definition generateRpgCard (u : UserRecord) (o : CardOptions) : RenderedCard :=
  mkCard u (palette_of (opt_theme o)) (opt_lang o) (opt_font o)
         (fun r => (base_size r * multiplier o r)%Q).

Definition svg_headers (cache_control : string) : list (string * string) :=
  [("Content-Type", "image/svg+xml"); ("Cache-Control", cache_control)].

(** [GET /rpg/:username] (lines 60-129).  The result is the response, the
    cache after the request (the [waitUntil] write included) and the
    request's effects in order. *)
Definition rpg_handler (net : string -> UpstreamReply) (cache : Cache)
    (username : string) (q : Query) : Response * Cache * list Event :=
  let options := options_of q in
  let '(cached, ev1) := getCachedUser cache username in
  match cached with
  | Some user =>
      (mkResponse 200 (svg_headers "public, max-age=300")
                  (SvgCard (generateRpgCard user options)), cache, ev1)
  | None =>
      let '(result, ev2) := fetchGitHubUser net username in
      match result with
      | FetchErr err st =>
          (mkResponse st (svg_headers "no-cache")
                      (SvgError (createErrorSvg err (opt_theme options))),
           cache, (ev1 ++ ev2)%list)
      | FetchOk user =>
          let '(cache', ev3) := setCachedUser cache username user in
          (mkResponse 200 (svg_headers "public, max-age=300")
                      (SvgCard (generateRpgCard user options)),
           cache', (ev1 ++ ev2 ++ ev3)%list)
      end
  end.

(** [GET /preview/:username] (lines 132-499); the page is kept as the
    data it interpolates: the escaped name, the [<option>] list built from
    [Object.entries(FONTS)] and [DEFAULT_FONT]. *)
Definition font_options : list (string * string * bool) :=
  map (fun '(k, cfg) => (k, font_name cfg, String.eqb k DEFAULT_FONT)) FONTS.

Definition preview_handler (rawUsername : string) : Response :=
  if negb (valid_username rawUsername) then
    mkResponse 400 [("Content-Type", "text/plain; charset=UTF-8")]
               (TextBody "Invalid username format")
  else
    mkResponse 200 [("Content-Type", "text/html; charset=UTF-8")]
               (HtmlPreview (escapeXml rawUsername) font_options DEFAULT_FONT).

End Worker.

(** A registry for running the handlers on examples: the two pixel fonts
    the preview page names, and a monospace entry used as the default. *)
Definition FONTS_sample : list (string * FontConfig) :=
  [("courier", mkFont "Courier New" "'Courier New', monospace" "monospace");
   ("press-start-2p", mkFont "Press Start 2P" "'Press Start 2P', monospace" "pixel");
   ("silkscreen", mkFont "Silkscreen" "'Silkscreen', monospace" "pixel")].

Definition base_sample (r : Role) : Q :=
  match r with
  | RTitle => 20 | RLevel => 14 | RUsername => 12 | RBio => 11
  | RStatLabel => 12 | RStatValue => 12 | RBarLabel => 10
  end.

Definition alice : UserRecord :=
  mkUser "alice" None (Some "hi") 3 10 5 "" "https://github.com/alice" "2020-01-01".

(** The status an error card is sent with, per failure kind. *)
Definition status_mirrors (k : ErrorKind) (st : Z) : Prop :=
  match k with
  | InvalidUsername => st = 400%Z
  | NotFound => st = 404%Z
  | RateLimited => st = 429%Z
  | UpstreamError => (400 <= st < 600)%Z
  end.

(** Every cache key is a name of the grammar. *)
Definition cache_wf (c : Cache) : Prop :=
  map_Forall (fun k _ => valid_username k = true) c.

(* ------------------------------------------------------------------ *)
(** ** The preview page's client script (index.ts, lines 385-494)

    The sliders move in steps of 0.05 over [[0.3, 2.0]]; a slider value
    is kept here as the whole number [k] of hundredths it denotes, the
    script holding the double nearest [k / 100].  [value.toFixed(2)]
    prints such a value with two decimals. *)

Definition digit_char (d : nat) : ascii := ascii_of_nat (48 + d).

Fixpoint nat_to_string_fuel (fuel n : nat) : string :=
  match fuel with
  | O => EmptyString
  | S f =>
      if Nat.ltb n 10 then String (digit_char n) EmptyString
      else String.append (nat_to_string_fuel f (n / 10))
                         (String (digit_char (n mod 10)) EmptyString)
  end.

Definition nat_to_string (n : nat) : string := nat_to_string_fuel (S n) n.

(** [toFixed(2)] of the value [k / 100]. *)
Definition toFixed2 (k : nat) : string :=
  String.append (nat_to_string (k / 100))
    (String "." (String (digit_char ((k / 10) mod 10))
                        (String (digit_char (k mod 10)) EmptyString))).

(** The script's state: [currentTheme], [currentFont] and the
    [sizeOverrides] object, whose entries are, in this order,
    [title, level, username, bio, stat_label, stat_value, bar_label]. *)
Record ClientState := mkClient {
  cs_theme : string;
  cs_font : string;
  cs_size : Role -> nat
}.

Definition client_key (r : Role) : string :=
  match r with
  | RTitle => "title" | RLevel => "level" | RUsername => "username"
  | RBio => "bio" | RStatLabel => "stat_label" | RStatValue => "stat_value"
  | RBarLabel => "bar_label"
  end.

(** [if (value !== 1.0) params.set('sz_' + key, value.toFixed(2))]. *)
Definition size_entry (st : ClientState) (r : Role) : Query :=
  if Nat.eqb (cs_size st r) 100 then []
  else [(String.append "sz_" (client_key r), toFixed2 (cs_size st r))].

Definition size_entries (st : ClientState) : Query :=
  (size_entry st RTitle ++ size_entry st RLevel ++ size_entry st RUsername
   ++ size_entry st RBio ++ size_entry st RStatLabel ++ size_entry st RStatValue
   ++ size_entry st RBarLabel)%list.

(** [updateCardImmediate]: the query of the live image. *)
Definition client_image_query (DEFAULT_FONT : string) (st : ClientState) : Query :=
  (("theme", cs_theme st)
   :: (if String.eqb (cs_font st) DEFAULT_FONT then [] else [("font", cs_font st)])
   ++ size_entries st)%list.

(** [updateEmbedCodes]: the query of the Markdown and HTML embed codes. *)
Definition client_embed_query (DEFAULT_FONT : string) (st : ClientState) : Query :=
  ((if String.eqb (cs_theme st) "dark" then [] else [("theme", cs_theme st)])
   ++ (if String.eqb (cs_font st) DEFAULT_FONT then [] else [("font", cs_font st)])
   ++ size_entries st)%list.

(** The options the handler derives from a client state. *)
Definition client_expected_options (st : ClientState) : CardOptions :=
  let e r := if Nat.eqb (cs_size st r) 100 then None
             else Some (nearest_double (Z.of_nat (cs_size st r) # 100)) in
  let so := mkSizes (e RTitle) (e RLevel) (e RUsername) (e RBio)
                    (e RStatLabel) (e RStatValue) (e RBarLabel) in
  mkOptions (if String.eqb (cs_theme st) "light" then Light else Dark) En
            (cs_font st) (if so_is_empty so then None else Some so).

Definition is_upstream_event (e : Event) : bool :=
  match e with EvUpstreamGet _ => true | _ => false end.

(* ------------------------------------------------------------------ *)
(** ** Properties *)

Lemma classify_err_status (r : UpstreamReply) k st :
  classify r = FetchErr k st -> status_mirrors k st.
Proof.
  destruct r as [s b|]; simpl; [|intros H; injection H as <- <-; simpl; lia].
  destruct ((200 <=? s)%Z && (s <? 300)%Z).
  - destruct b; intros H; [discriminate|]. injection H as <- <-; simpl; lia.
  - destruct (s =? 404)%Z; [intros H; injection H as <- <-; reflexivity|].
    destruct ((s =? 403)%Z || (s =? 429)%Z); intros H; injection H as <- <-;
      simpl; [reflexivity|lia].
Qed.

Lemma fetch_err_status net u k st evs :
  fetchGitHubUser net u = (FetchErr k st, evs) -> status_mirrors k st.
Proof.
  unfold fetchGitHubUser. destruct (valid_username u).
  - intros H. injection H as H _. now apply classify_err_status in H.
  - intros H. injection H as <- <- _. reflexivity.
Qed.

Lemma fetch_invalid net u :
  valid_username u = false -> fetchGitHubUser net u = (FetchErr InvalidUsername 400, []).
Proof. unfold fetchGitHubUser. now intros ->. Qed.

Lemma createErrorSvg_document k t : is_svg_document (createErrorSvg k t) = true.
Proof. destruct k, t; reflexivity. Qed.

Lemma status_mirrors_not_200 k st : status_mirrors k st -> st <> 200%Z.
Proof. destruct k; simpl; lia. Qed.

(** The handler's response, cache and effects do not depend on the
    status-neutral query: only the body differs between two queries. *)
Lemma rpg_handler_query_frame FONTS D base net cache u q q' :
  resp_status (fst (fst (rpg_handler FONTS D base net cache u q)))
    = resp_status (fst (fst (rpg_handler FONTS D base net cache u q')))
  /\ resp_headers (fst (fst (rpg_handler FONTS D base net cache u q)))
    = resp_headers (fst (fst (rpg_handler FONTS D base net cache u q')))
  /\ snd (fst (rpg_handler FONTS D base net cache u q))
    = snd (fst (rpg_handler FONTS D base net cache u q'))
  /\ snd (rpg_handler FONTS D base net cache u q)
    = snd (rpg_handler FONTS D base net cache u q').
Proof.
  unfold rpg_handler, getCachedUser, setCachedUser.
  destruct (cache !! u); [repeat split|].
  destruct (fetchGitHubUser net u) as [[user|k st] evs]; repeat split.
Qed.

(** The handler keeps every cache key inside the grammar. *)
Lemma rpg_handler_cache_wf FONTS D base net cache u q :
  cache_wf cache -> cache_wf (snd (fst (rpg_handler FONTS D base net cache u q))).
Proof.
  intros Hwf. unfold rpg_handler, getCachedUser, setCachedUser.
  destruct (cache !! u); [exact Hwf|].
  destruct (fetchGitHubUser net u) as [[user|k st] evs] eqn:Hf; [|exact Hwf].
  simpl. apply map_Forall_insert_2; [|exact Hwf].
  unfold fetchGitHubUser in Hf. destruct (valid_username u); [reflexivity|discriminate].
Qed.

(** C1: when the record is neither cached nor fetched, the body is the
    error renderer's SVG document, built from the failure kind and the
    theme only (no user record reaches it), and the status mirrors the
    failure kind: 400, 404, 429, or a generic 4xx/5xx. *)
Theorem rpg_failure_error_card FONTS D base net cache u q k st evs :
  cache !! u = None ->
  fetchGitHubUser net u = (FetchErr k st, evs) ->
  rpg_handler FONTS D base net cache u q
    = (mkResponse st (svg_headers "no-cache")
         (SvgError (createErrorSvg k (opt_theme (options_of FONTS D q)))),
       cache, (EvCacheGet u :: evs))
  /\ is_svg_document (createErrorSvg k (opt_theme (options_of FONTS D q))) = true
  /\ status_mirrors k st.
Proof.
  intros Hmiss Hfetch. split; [|split].
  - unfold rpg_handler, getCachedUser. rewrite Hmiss, Hfetch. reflexivity.
  - apply createErrorSvg_document.
  - exact (fetch_err_status _ _ _ _ _ Hfetch).
Qed.

Lemma rpg_failure_error_card_witness :
  (∅ : Cache) !! "bad_user!" = None
  /\ fetchGitHubUser (fun _ => TransportFailure) "bad_user!"
       = (FetchErr InvalidUsername 400, [])
  /\ rpg_handler FONTS_sample "courier" base_sample (fun _ => TransportFailure)
       ∅ "bad_user!" []
     = (mkResponse 400 (svg_headers "no-cache")
          (SvgError (createErrorSvg InvalidUsername
                       (opt_theme (options_of FONTS_sample "courier" [])))),
        ∅, [EvCacheGet "bad_user!"])
  /\ is_svg_document (createErrorSvg InvalidUsername
                        (opt_theme (options_of FONTS_sample "courier" []))) = true
  /\ status_mirrors InvalidUsername 400.
Proof.
  assert (H1 : (∅ : Cache) !! "bad_user!" = None) by reflexivity.
  assert (H2 : fetchGitHubUser (fun _ => TransportFailure) "bad_user!"
               = (FetchErr InvalidUsername 400, [])) by reflexivity.
  split; [exact H1|]. split; [exact H2|].
  exact (rpg_failure_error_card FONTS_sample "courier" base_sample
           (fun _ => TransportFailure) ∅ "bad_user!" [] InvalidUsername 400 [] H1 H2).
Defined.

(** C2 (as stated, refuted): for the spec's own example [bad_user!] the
    handler reads the cache before the name is checked. *)
Lemma rpg_invalid_username_reads_cache :
  valid_username "bad_user!" = false
  /\ snd (rpg_handler FONTS_sample "courier" base_sample (fun _ => TransportFailure)
            ∅ "bad_user!" [])
     = [EvCacheGet "bad_user!"].
Proof. split; reflexivity. Qed.

(** C2 (amended): for a name outside the grammar, on a cache whose keys
    all lie in the grammar (which every request preserves, see
    [rpg_handler_cache_wf]), the response is the 400 error card; the only
    effect is the cache lookup of the name, no upstream request is made
    and the cache is left unchanged. *)
Theorem rpg_invalid_username_400 FONTS D base net cache u q :
  cache_wf cache ->
  valid_username u = false ->
  rpg_handler FONTS D base net cache u q
    = (mkResponse 400 (svg_headers "no-cache")
         (SvgError (createErrorSvg InvalidUsername (opt_theme (options_of FONTS D q)))),
       cache, [EvCacheGet u]).
Proof.
  intros Hwf Hinv.
  assert (Hmiss : cache !! u = None).
  { destruct (cache !! u) as [r|] eqn:E; [|reflexivity].
    pose proof (map_Forall_lookup_1 _ _ _ _ Hwf E) as Hv. simpl in Hv. congruence. }
  unfold rpg_handler, getCachedUser. rewrite Hmiss, (fetch_invalid net u Hinv).
  reflexivity.
Qed.

Lemma rpg_invalid_username_400_witness :
  cache_wf ∅ /\ valid_username "bad_user!" = false
  /\ rpg_handler FONTS_sample "courier" base_sample (fun _ => TransportFailure)
       ∅ "bad_user!" []
     = (mkResponse 400 (svg_headers "no-cache")
          (SvgError (createErrorSvg InvalidUsername
                       (opt_theme (options_of FONTS_sample "courier" [])))),
        ∅, [EvCacheGet "bad_user!"]).
Proof.
  assert (H1 : cache_wf ∅) by apply map_Forall_empty.
  assert (H2 : valid_username "bad_user!" = false) by reflexivity.
  split; [exact H1|]. split; [exact H2|].
  exact (rpg_invalid_username_400 FONTS_sample "courier" base_sample
           (fun _ => TransportFailure) ∅ "bad_user!" [] H1 H2).
Defined.

(** C5: a cache miss on a name of the grammar whose upstream lookup
    answers 404 yields status 404 with the NotFound error card; the
    effects are the cache lookup and the one upstream request, there is
    no cache write and the cache is unchanged. *)
Theorem rpg_upstream_404_no_cache_write FONTS D base net cache u q b :
  cache !! u = None ->
  valid_username u = true ->
  net u = Reply 404 b ->
  rpg_handler FONTS D base net cache u q
    = (mkResponse 404 (svg_headers "no-cache")
         (SvgError (createErrorSvg NotFound (opt_theme (options_of FONTS D q)))),
       cache, [EvCacheGet u; EvUpstreamGet u])
  /\ is_svg_document (createErrorSvg NotFound (opt_theme (options_of FONTS D q))) = true.
Proof.
  intros Hmiss Hv Hnet. split; [|apply createErrorSvg_document].
  unfold rpg_handler, getCachedUser, fetchGitHubUser.
  rewrite Hmiss, Hv, Hnet. reflexivity.
Qed.

Lemma rpg_upstream_404_no_cache_write_witness :
  (∅ : Cache) !! "does-not-exist-999" = None
  /\ valid_username "does-not-exist-999" = true
  /\ (fun _ : string => Reply 404 None) "does-not-exist-999" = Reply 404 None
  /\ rpg_handler FONTS_sample "courier" base_sample (fun _ => Reply 404 None)
       ∅ "does-not-exist-999" []
     = (mkResponse 404 (svg_headers "no-cache")
          (SvgError (createErrorSvg NotFound
                       (opt_theme (options_of FONTS_sample "courier" [])))),
        ∅, [EvCacheGet "does-not-exist-999"; EvUpstreamGet "does-not-exist-999"])
  /\ is_svg_document (createErrorSvg NotFound
                        (opt_theme (options_of FONTS_sample "courier" []))) = true.
Proof.
  assert (H1 : (∅ : Cache) !! "does-not-exist-999" = None) by reflexivity.
  assert (H2 : valid_username "does-not-exist-999" = true) by reflexivity.
  assert (H3 : (fun _ : string => Reply 404 None) "does-not-exist-999" = Reply 404 None)
    by reflexivity.
  split; [exact H1|]. split; [exact H2|]. split; [exact H3|].
  exact (rpg_upstream_404_no_cache_write FONTS_sample "courier" base_sample
           (fun _ => Reply 404 None) ∅ "does-not-exist-999" [] None H1 H2 H3).
Defined.

(** C10: every [/rpg] response is either a card sent with status 200 and
    [Cache-Control: public, max-age=300], or an error card sent with a
    status other than 200 and [Cache-Control: no-cache]; both carry
    [Content-Type: image/svg+xml]. *)
Theorem rpg_response_headers FONTS D base net cache u q :
  let resp := fst (fst (rpg_handler FONTS D base net cache u q)) in
  (exists c, resp_body resp = SvgCard c /\ resp_status resp = 200%Z
             /\ resp_headers resp
                = [("Content-Type", "image/svg+xml");
                   ("Cache-Control", "public, max-age=300")])
  \/ (exists x, resp_body resp = SvgError x /\ resp_status resp <> 200%Z
                /\ resp_headers resp
                   = [("Content-Type", "image/svg+xml"); ("Cache-Control", "no-cache")]).
Proof.
  simpl. unfold rpg_handler, getCachedUser, setCachedUser.
  destruct (cache !! u); [left; eauto|].
  destruct (fetchGitHubUser net u) as [[user|k st] evs] eqn:Hf; [left; eauto|].
  right. eexists; simpl; repeat split.
  exact (status_mirrors_not_200 _ _ (fetch_err_status _ _ _ _ _ Hf)).
Qed.

Lemma rpg_cache_hit FONTS D base net cache u q r :
  cache !! u = Some r ->
  rpg_handler FONTS D base net cache u q
    = (mkResponse 200 (svg_headers "public, max-age=300")
         (SvgCard (generateRpgCard base r (options_of FONTS D q))),
       cache, [EvCacheGet u]).
Proof. intros Hhit. unfold rpg_handler, getCachedUser. now rewrite Hhit. Qed.

(** C3: a cache hit issues no upstream request (the lookup is the only
    effect); and after a request that rendered a card, the cache holds the
    rendered record under the name, so a second request for the name,
    whatever the upstream and the query, only reads the cache and renders
    the same record. *)
Theorem rpg_cache_hit_idempotent FONTS D base net1 cache u q1 resp1 c1 evs1 card1 :
  rpg_handler FONTS D base net1 cache u q1 = (resp1, c1, evs1) ->
  resp_body resp1 = SvgCard card1 ->
  (forall net c r q, c !! u = Some r ->
     snd (rpg_handler FONTS D base net c u q) = [EvCacheGet u])
  /\ c1 !! u = Some (card_user card1)
  /\ (forall net2 q2,
        rpg_handler FONTS D base net2 c1 u q2
        = (mkResponse 200 (svg_headers "public, max-age=300")
             (SvgCard (generateRpgCard base (card_user card1) (options_of FONTS D q2))),
           c1, [EvCacheGet u])).
Proof.
  intros H1 Hbody.
  assert (Hc1 : c1 !! u = Some (card_user card1)).
  { unfold rpg_handler, getCachedUser, setCachedUser in H1.
    destruct (cache !! u) as [r|] eqn:Hc.
    - injection H1 as <- <- _. simpl in Hbody. injection Hbody as <-. exact Hc.
    - destruct (fetchGitHubUser net1 u) as [[user|k st] evs] eqn:Hf;
        injection H1 as <- <- _; simpl in Hbody; [|discriminate].
      injection Hbody as <-. apply lookup_insert_eq. }
  split; [|split; [exact Hc1|]].
  - intros net c r q Hhit. now rewrite (rpg_cache_hit FONTS D base net c u q r Hhit).
  - intros net2 q2. apply rpg_cache_hit. exact Hc1.
Qed.

Lemma rpg_cache_hit_idempotent_witness :
  rpg_handler FONTS_sample "courier" base_sample (fun _ => Reply 200 (Some alice))
    ∅ "alice" []
  = (mkResponse 200 (svg_headers "public, max-age=300")
       (SvgCard (generateRpgCard base_sample alice (options_of FONTS_sample "courier" []))),
     <["alice" := alice]> ∅,
     [EvCacheGet "alice"; EvUpstreamGet "alice"; EvCachePut "alice" alice])
  /\ <["alice" := alice]> (∅ : Cache) !! "alice" = Some alice.
Proof.
  assert (H1 : rpg_handler FONTS_sample "courier" base_sample (fun _ => Reply 200 (Some alice))
    ∅ "alice" []
  = (mkResponse 200 (svg_headers "public, max-age=300")
       (SvgCard (generateRpgCard base_sample alice (options_of FONTS_sample "courier" []))),
     <["alice" := alice]> ∅,
     [EvCacheGet "alice"; EvUpstreamGet "alice"; EvCachePut "alice" alice])) by reflexivity.
  split; [exact H1|].
  exact (proj1 (proj2 (rpg_cache_hit_idempotent FONTS_sample "courier" base_sample
           (fun _ => Reply 200 (Some alice)) ∅ "alice" [] _ _ _
           (generateRpgCard base_sample alice (options_of FONTS_sample "courier" []))
           H1 eq_refl))).
Defined.

(** The strict reading of "numeric": the whole value, up to surrounding
    white space, is one decimal literal (as JavaScript's [Number(s)] reads
    a non-empty string). *)
Definition js_numeric_literal (s : string) : bool :=
  match parse_float_prefix s with
  | Some (_, rest) => match trim_start rest with [] => true | _ => false end
  | None => false
  end.

(** C4 (as stated, refuted): [sz_bio=1.5px] is not a number, yet it is not
    treated as absent: the bio is drawn at 1.5 times its base size. *)
Lemma size_override_numeric_prefix :
  js_numeric_literal "1.5px" = false
  /\ (card_font_size (generateRpgCard base_sample alice
        (options_of FONTS_sample "courier" [("sz_bio", "1.5px")])) RBio
      == base_sample RBio * (3 # 2))%Q
  /\ ~ (card_font_size (generateRpgCard base_sample alice
          (options_of FONTS_sample "courier" [("sz_bio", "1.5px")])) RBio
        == base_sample RBio * 1)%Q.
Proof.
  split; [reflexivity|]. split; [vm_compute; reflexivity|].
  vm_compute. discriminate.
Qed.

Lemma so_is_empty_get so r : so_is_empty so = true -> so_get so r = None.
Proof.
  destruct so as [[?|] [?|] [?|] [?|] [?|] [?|] [?|]]; simpl;
    try discriminate; destruct r; reflexivity.
Qed.

Lemma multiplier_options FONTS D q r :
  multiplier (options_of FONTS D q) r
  = match parseSizeOverride (query_get q (size_param r)) with
    | Some m => m | None => 1%Q end.
Proof.
  assert (Hget : so_get (sizeOverrides_of q) r
                 = parseSizeOverride (query_get q (size_param r)))
    by (destruct r; reflexivity).
  unfold multiplier, options_of. cbn [opt_sizeOverrides].
  destruct (so_is_empty (sizeOverrides_of q)) eqn:E.
  - rewrite <- Hget, (so_is_empty_get _ _ E). reflexivity.
  - now rewrite Hget.
Qed.

Lemma parseSizeOverride_some s m :
  parseSizeOverride (Some s) = Some m
  <-> s <> EmptyString /\ parseFloat s = Some (JFin m) /\ (js_0_3 <= m <= 2)%Q.
Proof.
  destruct s as [|c s']; simpl.
  - split; [discriminate|intros [H _]; congruence].
  - destruct (parseFloat (String c s')) as [[q|neg]|]; simpl.
    + destruct (Qle_bool js_0_3 q) eqn:E1, (Qle_bool q 2) eqn:E2; simpl.
      * split.
        -- intros H. injection H as <-.
           repeat split; [discriminate| |]; now apply Qle_bool_iff.
        -- intros (_ & H & _). now injection H as ->.
      * split; [discriminate|]. intros (_ & Hp & Hlo & Hhi). injection Hp as <-.
        apply Qle_bool_iff in Hlo, Hhi. congruence.
      * split; [discriminate|]. intros (_ & Hp & Hlo & Hhi). injection Hp as <-.
        apply Qle_bool_iff in Hlo, Hhi. congruence.
      * split; [discriminate|]. intros (_ & Hp & Hlo & Hhi). injection Hp as <-.
        apply Qle_bool_iff in Hlo, Hhi. congruence.
    + split; [discriminate|]. intros (_ & H & _). discriminate.
    + split; [discriminate|]. intros (_ & H & _). discriminate.
Qed.

(** C4 (amended): each size parameter is read with JavaScript's
    [parseFloat] (leading white space skipped, longest numeric prefix,
    trailing text ignored, the value rounded to a double); when that
    number lies in [[0.3, 2.0]] (the double [0.3], [js_0_3]) the role
    is drawn at base size times the number, otherwise (absent, empty, no
    numeric prefix, out of range) at base size times 1; and the query never
    changes the response status, cache or effects. *)
Theorem size_override_scaling FONTS D base u q r :
  card_font_size (generateRpgCard base u (options_of FONTS D q)) r
    = (base r * match parseSizeOverride (query_get q (size_param r)) with
                | Some m => m | None => 1 end)%Q
  /\ (forall s m, parseSizeOverride (Some s) = Some m
       <-> s <> EmptyString /\ parseFloat s = Some (JFin m) /\ (js_0_3 <= m <= 2)%Q)
  /\ (forall net cache name q',
        resp_status (fst (fst (rpg_handler FONTS D base net cache name q)))
        = resp_status (fst (fst (rpg_handler FONTS D base net cache name q')))).
Proof.
  split; [|split].
  - simpl. now rewrite multiplier_options.
  - apply parseSizeOverride_some.
  - intros net cache name q'. apply (rpg_handler_query_frame FONTS D base net cache name q q').
Qed.

(** C7: a name outside the grammar is answered with the plain-text 400
    response, which carries none of the page; a name of the grammar gets
    the HTML preview page (status 200). *)
Theorem preview_validates_username FONTS D raw :
  (valid_username raw = false ->
     preview_handler FONTS D raw
     = mkResponse 400 [("Content-Type", "text/plain; charset=UTF-8")]
                  (TextBody "Invalid username format"))
  /\ (valid_username raw = true ->
        preview_handler FONTS D raw
        = mkResponse 200 [("Content-Type", "text/html; charset=UTF-8")]
                     (HtmlPreview (escapeXml raw) (font_options FONTS D) D)).
Proof. unfold preview_handler. split; intros ->; reflexivity. Qed.

(** C8 (divergence): for a registry with no own entry [constructor], the
    value [font=constructor] passes the [FONTS[fontParam]] test through the
    member inherited from [Object.prototype]: the options carry the
    unknown key [constructor] rather than the default entry. *)
Theorem font_inherited_member_accepted FONTS D :
  assoc_get FONTS "constructor" = None ->
  D <> "constructor" ->
  opt_font (options_of FONTS D [("font", "constructor")]) = "constructor"
  /\ opt_font (options_of FONTS D [("font", "constructor")]) <> D.
Proof.
  intros Hnone HD.
  assert (Hf : opt_font (options_of FONTS D [("font", "constructor")]) = "constructor").
  { unfold options_of, select_font, js_get. cbn -[assoc_get].
    rewrite Hnone. reflexivity. }
  split; [exact Hf|]. rewrite Hf. intros H. apply HD. now symmetry.
Qed.

Lemma font_inherited_member_accepted_witness :
  assoc_get FONTS_sample "constructor" = None
  /\ "courier" <> "constructor"
  /\ opt_font (options_of FONTS_sample "courier" [("font", "constructor")]) = "constructor"
  /\ opt_font (options_of FONTS_sample "courier" [("font", "constructor")]) <> "courier".
Proof.
  assert (H1 : assoc_get FONTS_sample "constructor" = None) by reflexivity.
  assert (H2 : "courier" <> "constructor") by discriminate.
  split; [exact H1|]. split; [exact H2|].
  exact (font_inherited_member_accepted FONTS_sample "courier" H1 H2).
Defined.

(** C9: the theme is light exactly when the [theme] value is the string
    [light], the language is Japanese exactly when the [lang] value is
    [ja]; the card or error card is drawn with that theme (and the card
    with that language); and no query changes the response status. *)
Theorem rpg_theme_lang_defaults FONTS D base net cache u q :
  (opt_theme (options_of FONTS D q) = Light <-> query_get q "theme" = Some "light")
  /\ (opt_lang (options_of FONTS D q) = Ja <-> query_get q "lang" = Some "ja")
  /\ match resp_body (fst (fst (rpg_handler FONTS D base net cache u q))) with
     | SvgCard c => card_palette c = palette_of (opt_theme (options_of FONTS D q))
                    /\ card_lang c = opt_lang (options_of FONTS D q)
     | SvgError x => exists k, x = createErrorSvg k (opt_theme (options_of FONTS D q))
     | _ => False
     end
  /\ (forall q', resp_status (fst (fst (rpg_handler FONTS D base net cache u q)))
                 = resp_status (fst (fst (rpg_handler FONTS D base net cache u q')))).
Proof.
  split; [|split; [|split]].
  - cbn [options_of opt_theme]. destruct (query_get q "theme") as [t|].
    + destruct (String.eqb t "light") eqn:E.
      * apply String.eqb_eq in E. subst. tauto.
      * apply String.eqb_neq in E. split; [discriminate|congruence].
    + split; discriminate.
  - cbn [options_of opt_lang]. destruct (query_get q "lang") as [l|].
    + destruct (String.eqb l "ja") eqn:E.
      * apply String.eqb_eq in E. subst. tauto.
      * apply String.eqb_neq in E. split; [discriminate|congruence].
    + split; discriminate.
  - unfold rpg_handler, getCachedUser, setCachedUser.
    destruct (cache !! u); [simpl; auto|].
    destruct (fetchGitHubUser net u) as [[user|k st] evs]; simpl; eauto.
  - intros q'. apply (rpg_handler_query_frame FONTS D base net cache u q q').
Qed.

(* ------------------------------------------------------------------ *)
(** ** Further properties of [src/index.ts] *)

Definition toFixed2_reads_back (k : nat) : bool :=
  let d := nearest_double (Z.of_nat k # 100) in
  match parseSizeOverride (Some (toFixed2 k)) with
  | Some q => Z.eqb (Qnum q) (Qnum d) && Pos.eqb (Qden q) (Qden d)
  | None => false
  end.

Lemma toFixed2_reads_back_range :
  forallb toFixed2_reads_back (seq 30 171) = true.
Proof. vm_compute. reflexivity. Qed.

(** Every slider value the preview page can send, printed with
    [toFixed(2)], is accepted by [parseSizeOverride] and read back as
    the same double, the one nearest [k / 100]. *)
Theorem toFixed2_parseSizeOverride k :
  (30 <= k <= 200)%nat ->
  parseSizeOverride (Some (toFixed2 k)) = Some (nearest_double (Z.of_nat k # 100)).
Proof.
  intros Hk.
  assert (Hin : In k (seq 30 171)) by (apply in_seq; lia).
  pose proof (proj1 (forallb_forall _ _) toFixed2_reads_back_range k Hin) as H.
  unfold toFixed2_reads_back in H.
  destruct (parseSizeOverride (Some (toFixed2 k))) as [[n d]|]; [|discriminate].
  destruct (nearest_double (Z.of_nat k # 100)) as [n' d'].
  apply andb_true_iff in H as [Hn Hd].
  apply Z.eqb_eq in Hn. apply Pos.eqb_eq in Hd. simpl in Hn, Hd. now subst.
Qed.

Lemma toFixed2_parseSizeOverride_witness :
  (30 <= 135 <= 200)%nat
  /\ parseSizeOverride (Some (toFixed2 135)) = Some (nearest_double (135 # 100)).
Proof.
  assert (H : (30 <= 135 <= 200)%nat) by lia.
  split; [exact H|]. exact (toFixed2_parseSizeOverride 135 H).
Defined.

(** [parseSizeOverride] compares the double that [parseFloat] rounds to,
    not the decimal written: a value within half a unit in the last place
    of [2] or of the double [0.3] is accepted as that double, one just
    beyond is refused; and white space outside ASCII (U+00A0, U+3000,
    U+FEFF) before the number is skipped. *)
Theorem parseSizeOverride_double_rounding :
  parseSizeOverride (Some "2.0000000000000001") = parseSizeOverride (Some "2")
  /\ parseSizeOverride (Some "0.29999999999999997") = parseSizeOverride (Some "0.3")
  /\ parseSizeOverride (Some "2") <> None
  /\ parseSizeOverride (Some "0.3") <> None
  /\ parseSizeOverride (Some "2.0000000000000003") = None
  /\ parseSizeOverride (Some "0.29999999999999995") = None
  /\ parseSizeOverride (Some (String (ascii_of_nat 194) (String (ascii_of_nat 160) "1.5")))
     = parseSizeOverride (Some "1.5")
  /\ parseSizeOverride
       (Some (String (ascii_of_nat 227) (String (ascii_of_nat 128) (String (ascii_of_nat 128)
         (String (ascii_of_nat 239) (String (ascii_of_nat 187) (String (ascii_of_nat 191)
           "1.5")))))))
     = parseSizeOverride (Some "1.5")
  /\ parseSizeOverride (Some "1.5") <> None.
Proof.
  repeat split; vm_compute; first [reflexivity | discriminate].
Qed.

Lemma query_get_app (q1 q2 : Query) k :
  query_get (q1 ++ q2)%list k
  = match query_get q1 k with Some v => Some v | None => query_get q2 k end.
Proof.
  induction q1 as [|[k' v] q1 IH]; simpl; [reflexivity|].
  destruct (String.eqb k' k); auto.
Qed.

Lemma size_entry_get st r k :
  query_get (size_entry st r) k
  = if negb (Nat.eqb (cs_size st r) 100)
       && String.eqb (String.append "sz_" (client_key r)) k
    then Some (toFixed2 (cs_size st r)) else None.
Proof.
  unfold size_entry. destruct (Nat.eqb (cs_size st r) 100); simpl; [reflexivity|].
  destruct (String.eqb (String.append "sz_" (client_key r)) k); reflexivity.
Qed.

Lemma size_entries_get_param st r :
  query_get (size_entries st) (size_param r)
  = if Nat.eqb (cs_size st r) 100 then None else Some (toFixed2 (cs_size st r)).
Proof.
  unfold size_entries. rewrite !query_get_app, !size_entry_get.
  destruct r; simpl; rewrite ?andb_false_r, ?andb_true_r;
    destruct (Nat.eqb _ 100); reflexivity.
Qed.

Lemma size_entries_get_font st : query_get (size_entries st) "font" = None.
Proof.
  unfold size_entries. rewrite !query_get_app, !size_entry_get.
  simpl. rewrite !andb_false_r. reflexivity.
Qed.

Lemma size_entries_get_lang st : query_get (size_entries st) "lang" = None.
Proof.
  unfold size_entries. rewrite !query_get_app, !size_entry_get.
  simpl. rewrite !andb_false_r. reflexivity.
Qed.

Lemma size_entries_get_theme st : query_get (size_entries st) "theme" = None.
Proof.
  unfold size_entries. rewrite !query_get_app, !size_entry_get.
  simpl. rewrite !andb_false_r. reflexivity.
Qed.

(** The part of a client query after the theme: the font entry and the
    size entries. *)
Lemma client_tail_options FONTS D st (th : Query) :
  query_get th "font" = None -> query_get th "lang" = None ->
  (forall r, query_get th (size_param r) = None) ->
  (cs_font st = D \/ (cs_font st <> EmptyString /\ assoc_get FONTS (cs_font st) <> None)) ->
  (forall r, 30 <= cs_size st r <= 200)%nat ->
  options_of FONTS D
    (th ++ (if String.eqb (cs_font st) D then [] else [("font", cs_font st)])
        ++ size_entries st)%list
  = mkOptions (match query_get th "theme" with
               | Some t => if String.eqb t "light" then Light else Dark
               | None => Dark end)
              (opt_lang (client_expected_options st))
              (opt_font (client_expected_options st))
              (opt_sizeOverrides (client_expected_options st)).
Proof.
  intros Hf Hl Hs Hfont Hk.
  assert (Hsz : forall r,
    parseSizeOverride
      (query_get (th ++ (if String.eqb (cs_font st) D then [] else [("font", cs_font st)])
                     ++ size_entries st)%list (size_param r))
    = if Nat.eqb (cs_size st r) 100 then None
      else Some (nearest_double (Z.of_nat (cs_size st r) # 100))).
  { intros r. rewrite !query_get_app, Hs.
    destruct (String.eqb (cs_font st) D); cbn [query_get];
      [|replace (String.eqb "font" (size_param r)) with false by (destruct r; reflexivity)];
      rewrite size_entries_get_param;
      (destruct (Nat.eqb (cs_size st r) 100); [reflexivity|]);
      apply toFixed2_parseSizeOverride, Hk. }
  unfold options_of, sizeOverrides_of.
  pose proof (Hsz RTitle) as H1; pose proof (Hsz RLevel) as H2;
  pose proof (Hsz RUsername) as H3; pose proof (Hsz RBio) as H4;
  pose proof (Hsz RStatLabel) as H5; pose proof (Hsz RStatValue) as H6;
  pose proof (Hsz RBarLabel) as H7.
  cbn [size_param] in H1, H2, H3, H4, H5, H6, H7.
  rewrite H1, H2, H3, H4, H5, H6, H7.
  rewrite !query_get_app, Hf, Hl.
  rewrite size_entries_get_font, size_entries_get_lang, size_entries_get_theme.
  f_equal.
  - destruct (query_get th "theme"); [reflexivity|].
    destruct (String.eqb (cs_font st) D); reflexivity.
  - destruct (String.eqb (cs_font st) D); reflexivity.
  - destruct (String.eqb (cs_font st) D) eqn:E.
    + apply String.eqb_eq in E. simpl. now rewrite E.
    + apply String.eqb_neq in E. destruct Hfont as [Hd|[Hne Hown]]; [contradiction|].
      simpl. unfold select_font, js_get.
      destruct (assoc_get FONTS (cs_font st)) eqn:Ha; [|contradiction].
      destruct (cs_font st); [contradiction|reflexivity].
Qed.

(** Round trip between the preview page and the card handler: for a
    client state whose font is the default or a (non-empty) registry key
    and whose sliders lie in [[0.3, 2.0]], the query of the live image
    ([updateCardImmediate]) and the query of the embed codes
    ([updateEmbedCodes]) both make the handler build the same options:
    the state's theme, English, the state's font, and each slider value
    other than 1.0 as the size override of its role. *)
Theorem preview_client_query_roundtrip FONTS D st :
  (cs_font st = D \/ (cs_font st <> EmptyString /\ assoc_get FONTS (cs_font st) <> None)) ->
  (forall r, 30 <= cs_size st r <= 200)%nat ->
  options_of FONTS D (client_image_query D st) = client_expected_options st
  /\ options_of FONTS D (client_embed_query D st) = client_expected_options st.
Proof.
  intros Hfont Hk. split.
  - unfold client_image_query.
    change (("theme", cs_theme st) :: ?rest)%list with ([("theme", cs_theme st)] ++ rest)%list.
    rewrite (client_tail_options FONTS D st [("theme", cs_theme st)]);
      [|reflexivity|reflexivity|intros []; reflexivity|exact Hfont|exact Hk].
    reflexivity.
  - unfold client_embed_query.
    destruct (String.eqb (cs_theme st) "dark") eqn:Et.
    + rewrite (client_tail_options FONTS D st []);
        [|reflexivity|reflexivity|intros []; reflexivity|exact Hfont|exact Hk].
      apply String.eqb_eq in Et. unfold client_expected_options. rewrite Et. reflexivity.
    + rewrite (client_tail_options FONTS D st [("theme", cs_theme st)]);
        [|reflexivity|reflexivity|intros []; reflexivity|exact Hfont|exact Hk].
      reflexivity.
Qed.

Definition client_sample : ClientState :=
  mkClient "light" "silkscreen"
    (fun r => match r with RBio => 150 | RTitle => 35 | _ => 100 end).

Lemma preview_client_query_roundtrip_witness :
  ("silkscreen" = "courier"
   \/ ("silkscreen" <> EmptyString /\ assoc_get FONTS_sample "silkscreen" <> None))
  /\ (forall r, 30 <= cs_size client_sample r <= 200)%nat
  /\ options_of FONTS_sample "courier" (client_image_query "courier" client_sample)
     = client_expected_options client_sample
  /\ options_of FONTS_sample "courier" (client_embed_query "courier" client_sample)
     = client_expected_options client_sample.
Proof.
  assert (H1 : "silkscreen" = "courier"
    \/ ("silkscreen" <> EmptyString /\ assoc_get FONTS_sample "silkscreen" <> None))
    by (right; split; discriminate).
  assert (H2 : (forall r, 30 <= cs_size client_sample r <= 200)%nat)
    by (intros []; simpl; lia).
  split; [exact H1|]. split; [exact H2|].
  exact (preview_client_query_roundtrip FONTS_sample "courier" client_sample H1 H2).
Defined.

(** One [/rpg] request makes at most one upstream request; it writes the
    cache at most through the one [waitUntil] write, under the requested
    name and with the record the upstream returned; without a write the
    cache is left as it was. *)
Theorem rpg_effects_bounded FONTS D base net cache u q :
  let '(_, cache', evs) := rpg_handler FONTS D base net cache u q in
  (length (List.filter is_upstream_event evs) <= 1)%nat
  /\ (forall k r, In (EvCachePut k r) evs ->
        k = u /\ classify (net u) = FetchOk r /\ cache' = <[u := r]> cache)
  /\ ((forall k r, ~ In (EvCachePut k r) evs) -> cache' = cache).
Proof.
  unfold rpg_handler, getCachedUser, setCachedUser.
  destruct (cache !! u) as [r0|].
  - simpl. split; [lia|]. split; [intros k r [H|[]]; discriminate|auto].
  - destruct (fetchGitHubUser net u) as [res evs] eqn:Hf.
    unfold fetchGitHubUser in Hf.
    destruct (valid_username u); injection Hf as <- <-.
    + destruct (classify (net u)) as [user|k st] eqn:Hc; simpl.
      * split; [lia|]. split.
        -- intros k r [H|[H|[H|[]]]]; try discriminate. injection H as <- <-. auto.
        -- intros H. exfalso. apply (H u user). simpl. auto.
      * split; [lia|]. split; [intros k' r [H|[H|[]]]; discriminate|auto].
    + simpl. split; [lia|]. split; [intros k' r [H|[]]; discriminate|auto].
Qed.

Lemma body_chars_ok l :
  username_body_ok l = true -> forall c, In c l -> is_alnum c || is_hyphen c = true.
Proof.
  induction l as [|a l IH]; simpl; [intros _ c []|].
  intros H c [<-|Hin]; apply andb_true_iff in H as [Ha Hl].
  - destruct (is_alnum a); [reflexivity|]. simpl in Ha.
    apply andb_true_iff in Ha as [Ha _]. now rewrite Ha, orb_true_r.
  - now apply IH.
Qed.

Lemma escape_char_plain c :
  is_alnum c || is_hyphen c = true -> escape_char c = String c EmptyString.
Proof.
  destruct c as [[] [] [] [] [] [] [] []]; vm_compute; first [reflexivity | discriminate].
Qed.

Lemma escapeXml_plain s :
  (forall c, In c (list_ascii_of_string s) -> is_alnum c || is_hyphen c = true) ->
  escapeXml s = s.
Proof.
  induction s as [|c s IH]; simpl; [reflexivity|]. intros H.
  rewrite escape_char_plain by (apply H; left; reflexivity).
  simpl. f_equal. apply IH. intros c' Hc'. apply H. right. exact Hc'.
Qed.

(** For a name the preview route accepts, escaping changes nothing: the
    page (its title, image URL and script) interpolates the requested
    name itself. *)
Theorem preview_valid_name_unescaped FONTS D raw :
  valid_username raw = true ->
  escapeXml raw = raw
  /\ preview_handler FONTS D raw
     = mkResponse 200 [("Content-Type", "text/html; charset=UTF-8")]
                  (HtmlPreview raw (font_options FONTS D) D).
Proof.
  intros Hv.
  assert (He : escapeXml raw = raw).
  { apply escapeXml_plain. unfold valid_username in Hv.
    destruct (list_ascii_of_string raw) as [|c l]; [discriminate|].
    apply andb_true_iff in Hv as [Hv _]. apply andb_true_iff in Hv as [_ Hb].
    exact (body_chars_ok _ Hb). }
  split; [exact He|]. unfold preview_handler. rewrite Hv, He. reflexivity.
Qed.

Lemma preview_valid_name_unescaped_witness :
  valid_username "does-not-exist-999" = true
  /\ escapeXml "does-not-exist-999" = "does-not-exist-999"
  /\ preview_handler FONTS_sample "courier" "does-not-exist-999"
     = mkResponse 200 [("Content-Type", "text/html; charset=UTF-8")]
                  (HtmlPreview "does-not-exist-999" (font_options FONTS_sample "courier")
                               "courier").
Proof.
  assert (H : valid_username "does-not-exist-999" = true) by reflexivity.
  split; [exact H|].
  exact (preview_valid_name_unescaped FONTS_sample "courier" "does-not-exist-999" H).
Defined.

Definition option_selected (o : string * string * bool) : bool :=
  let '(_, _, sel) := o in sel.

Lemma font_options_selected_count FONTS D :
  length (List.filter option_selected (font_options FONTS D))
  = length (List.filter (fun k => String.eqb k D) (map fst FONTS)).
Proof.
  unfold font_options.
  induction FONTS as [|[k cfg] l IH]; [reflexivity|].
  cbn [map List.filter fst]. unfold option_selected at 1.
  destruct (String.eqb k D); cbn [length]; [apply (f_equal S)|]; exact IH.
Qed.

Lemma count_eqb_notin (l : list string) x :
  ~ In x l -> length (List.filter (fun k => String.eqb k x) l) = 0%nat.
Proof.
  induction l as [|a l IH]; simpl; [reflexivity|]. intros Hn.
  destruct (String.eqb a x) eqn:E.
  - apply String.eqb_eq in E. subst. exfalso. apply Hn. left. reflexivity.
  - apply IH. intros H. apply Hn. right. exact H.
Qed.

(** The preview's font [<select>] lists the registry's entries in order,
    one [<option>] per entry; when the keys are distinct exactly one
    option is pre-selected if [DEFAULT_FONT] is a key, and none
    otherwise. *)
Theorem font_options_selection FONTS D :
  NoDup (map fst FONTS) ->
  map (fun o => fst (fst o)) (font_options FONTS D) = map fst FONTS
  /\ length (List.filter option_selected (font_options FONTS D))
     = if existsb (fun k => String.eqb k D) (map fst FONTS) then 1%nat else 0%nat.
Proof.
  intros Hnd. split.
  - unfold font_options. rewrite map_map.
    apply map_ext. intros [k cfg]. reflexivity.
  - rewrite font_options_selected_count.
    induction (map fst FONTS) as [|a l IH]; simpl; [reflexivity|].
    inversion Hnd as [|? ? Hnotin Hnd']; subst.
    destruct (String.eqb a D) eqn:E; simpl.
    + apply String.eqb_eq in E. subst. rewrite count_eqb_notin
        by (intros Hin; apply Hnotin, list_elem_of_In, Hin).
      reflexivity.
    + exact (IH Hnd').
Qed.

Lemma font_options_selection_witness :
  NoDup (map fst FONTS_sample)
  /\ map (fun o => fst (fst o)) (font_options FONTS_sample "courier") = map fst FONTS_sample
  /\ length (List.filter option_selected (font_options FONTS_sample "courier"))
     = if existsb (fun k => String.eqb k "courier") (map fst FONTS_sample)
       then 1%nat else 0%nat.
Proof.
  assert (H : NoDup (map fst FONTS_sample)).
  { apply (bool_decide_unpack _). vm_compute. reflexivity. }
  split; [exact H|]. exact (font_options_selection FONTS_sample "courier" H).
Defined.

Lemma rpg_handler_cache_wf_witness :
  cache_wf ∅
  /\ cache_wf (snd (fst (rpg_handler FONTS_sample "courier" base_sample
                           (fun _ => Reply 200 (Some alice)) ∅ "alice" []))).
Proof.
  assert (H : cache_wf ∅) by apply map_Forall_empty.
  split; [exact H|].
  exact (rpg_handler_cache_wf FONTS_sample "courier" base_sample
           (fun _ => Reply 200 (Some alice)) ∅ "alice" [] H).
Defined.
